(** * The versioned metadata codec of the lifecycle's [buildpack] package

    A shallow embedding of [buildpack/layermetadata.go] and of the data
    format file ([launch.toml], build plan, buildpack plan), with the
    properties their specification states.

    What is outside the package is kept small and explicit:
    - a file's text appears as what the TOML parser makes of it: a
      document tree with the positions of its keys, or a syntax error;
    - the TOML library decodes a document into a struct by the struct's
      [toml] tags, and encodes a struct into a document by the same tags;
    - the file system is a finite map from paths to files. *)

From Stdlib Require Import ZArith String Ascii List DecimalString.
From stdpp Require Import gmap strings list.

Set Warnings "-register-all".
Open Scope Z_scope.

(** ** Go values *)

(** An [interface{}] that holds TOML data: the tree go-toml builds when it
    decodes into an untyped target (floats and date-times are left out). *)
Inductive value : Type :=
| VString (s : string)
| VInt (z : Z)
| VBool (b : bool)
| VArray (l : list value)
| VTable (kvs : list (string * value)).

(** A [map[string]interface{}], in the order of its keys in the file. *)
Abbreviation table := (list (string * value)).

(** [m[key]] with the comma-ok form: the first binding of [key]. *)
Fixpoint get (m : table) (key : string) : option value :=
  match m with
  | [] => None
  | (k, v) :: m' => if String.eqb k key then Some v else get m' key
  end.

(** [m[key] = v] on a map. *)
Fixpoint put (m : table) (key : string) (v : value) : table :=
  match m with
  | [] => [(key, v)]
  | (k, w) :: m' =>
      if String.eqb k key then (k, v) :: m' else (k, w) :: put m' key v
  end.

(** [s == v] for a [string] s and an [interface{}] v: Go compares the
    dynamic types first, so only a string can be equal to a string. *)
Definition string_eq_iface (s : string) (v : value) : bool :=
  match v with
  | VString t => String.eqb s t
  | _ => false
  end.

(** [%d] of an integer. *)
Definition itoa (z : Z) : string := NilZero.string_of_int (Z.to_int z).

Definition join (sep : string) (l : list string) : string :=
  match l with
  | [] => ""
  | x :: r => fold_left (fun acc y => acc +:+ sep +:+ y) r x
  end.

Fixpoint insert_by_key (kv : string * string) (l : list (string * string))
  : list (string * string) :=
  match l with
  | [] => [kv]
  | kv' :: l' =>
      if String.leb (fst kv) (fst kv') then kv :: l
      else kv' :: insert_by_key kv l'
  end.

Definition sort_by_key (l : list (string * string)) : list (string * string) :=
  fold_right insert_by_key [] l.

(** [fmt.Sprintf("%v", v)]: a string as it is, an integer in decimal, a
    slice as [[a b c]], a map as [map[k:v k:v]] with its keys sorted. *)
Fixpoint Sprintf_v (v : value) : string :=
  match v with
  | VString s => s
  | VInt z => itoa z
  | VBool b => if b then "true" else "false"
  | VArray l =>
      "[" +:+ join " " ((fix each (l : list value) : list string :=
                          match l with
                          | [] => []
                          | x :: r => Sprintf_v x :: each r
                          end) l) +:+ "]"
  | VTable kvs =>
      "map[" +:+ join " "
        (List.map (fun kv : string * string => fst kv +:+ ":" +:+ snd kv)
           (sort_by_key ((fix each (l : table) : list (string * string) :=
                            match l with
                            | [] => []
                            | (k, x) :: r => (k, Sprintf_v x) :: each r
                            end) kvs))) +:+ "]"
  end.

(** ** Errors *)

(** [*toml.DecodeError]: what [String()] and [Position()] give. *)
Record DecodeError : Type := mkDecodeError {
  derr_String : string;
  derr_row : Z;
  derr_col : Z
}.

(** The dynamic types an [error] has in this package: the error of a file
    that cannot be opened, a decode error of the TOML library, another
    error of that library (the file cannot be read), and the errors made
    with [errors.New] and [fmt.Errorf]. *)
Inductive error : Type :=
| PathError (op path : string) (notExist : bool)
| TomlDecodeError (derr : DecodeError)
| TomlError (msg : string)
| ErrorString (msg : string).

Definition os_IsNotExist (err : option error) : bool :=
  match err with
  | Some (PathError _ _ b) => b
  | _ => false
  end.

(** [errors.As(err, &derr)] for [derr *toml.DecodeError]. *)
Definition errors_As_DecodeError (err : error) : option DecodeError :=
  match err with
  | TomlDecodeError d => Some d
  | _ => None
  end.

(** [fmt.Errorf("%s\nerror occurred at line %d column %d", ...)]. *)
Definition position_error (derr : DecodeError) : error :=
  ErrorString (derr_String derr +:+ String "010" "error occurred at line "
               +:+ itoa (derr_row derr) +:+ " column " +:+ itoa (derr_col derr)).

(** A call either returns or panics. *)
Inductive outcome (A : Type) : Type :=
| Panic
| Return (a : A).
Arguments Panic {A}.
Arguments Return {A} a.

(** ** API versions *)

Module api.

(** Modelled from the spec: the [api] package, which is not among the
    sources; the spec gives it as a dotted major.minor identifier with
    [AtLeast] and [LessThan]. *)
Record Version : Type := mkVersion { Major : N; Minor : N }.

Definition digit (c : ascii) : option N :=
  let n := N_of_ascii c in
  if ((48 <=? n) && (n <=? 57))%N then Some (n - 48)%N else None.

Fixpoint digits (acc : N) (s : string) : option N :=
  match s with
  | EmptyString => Some acc
  | String c s' =>
      match digit c with
      | Some d => digits (10 * acc + d)%N s'
      | None => None
      end
  end.

Definition number (s : string) : option N :=
  match s with
  | EmptyString => None
  | _ => digits 0%N s
  end.

Fixpoint split_dot (s : string) : option (string * string) :=
  match s with
  | EmptyString => None
  | String c s' =>
      if Ascii.eqb c "." then Some (EmptyString, s')
      else match split_dot s' with
           | Some (a, b) => Some (String c a, b)
           | None => None
           end
  end.

(** Modelled from the spec: [api.MustParse], which panics ([None]) on a
    string that is not a major.minor identifier. *)
Definition MustParse (s : string) : option Version :=
  match split_dot s with
  | Some (a, b) =>
      match number a, number b with
      | Some ma, Some mi => Some (mkVersion ma mi)
      | _, _ => None
      end
  | None => None
  end.

Definition Compare (v w : Version) : comparison :=
  match N.compare (Major v) (Major w) with
  | Eq => N.compare (Minor v) (Minor w)
  | c => c
  end.

(** Modelled from the spec: [v.AtLeast(s)] and [v.LessThan(s)]; the
    argument is parsed like the receiver. *)
Definition AtLeast (v : Version) (s : string) : option bool :=
  match MustParse s with
  | Some w => Some (match Compare v w with Lt => false | _ => true end)
  | None => None
  end.

Definition LessThan (v : Version) (s : string) : option bool :=
  match MustParse s with
  | Some w => Some (match Compare v w with Lt => true | _ => false end)
  | None => None
  end.

End api.

(** ** Files *)

(** What a file's text is to the TOML parser: a document, with the line
    and column of the value at each key path, or a syntax error. *)
Inductive contents : Type :=
| Document (doc : table) (locate : list string -> Z * Z)
| Malformed (derr : DecodeError).

(** A path names a file that can be opened, or one that cannot. *)
Inductive node : Type :=
| File (c : contents)
| Locked.

Abbreviation filesystem := (gmap string node).

Definition os_Open (fs : filesystem) (path : string) : error + contents :=
  match fs !! path with
  | None => inl (PathError "open" path true)
  | Some Locked => inl (PathError "open" path false)
  | Some (File c) => inr c
  end.

(** The layout of a document the encoder wrote. Positions in a written
    file are not modelled: every key is taken to be at line 1, column 1. *)
Definition written_layout (doc : table) : list string -> Z * Z :=
  fun _ => (1, 1).

(** [os.Create]: the file is there and empty afterwards. *)
Definition os_Create (fs : filesystem) (path : string)
  : filesystem * option error :=
  match fs !! path with
  | Some Locked => (fs, Some (PathError "open" path false))
  | _ => (<[path := File (Document [] (written_layout []))]> fs, None)
  end.

(** Writing an encoded document to an open file. *)
Definition write (fs : filesystem) (path : string) (doc : table) : filesystem :=
  <[path := File (Document doc (written_layout doc))]> fs.

(** ** The TOML library, on documents *)

Module toml.

(** A typed decode gives the value, or the key path of the first value
    of the document that does not fit its target. *)
Definition decoded (T : Type) : Type := (list string + T)%type.

Definition to_string (path : list string) (v : value) : decoded string :=
  match v with
  | VString s => inr s
  | _ => inl path
  end.

Definition to_bool (path : list string) (v : value) : decoded bool :=
  match v with
  | VBool b => inr b
  | _ => inl path
  end.

Fixpoint to_elements {T : Type} (elem : list string -> value -> decoded T)
    (path : list string) (l : list value) : decoded (list T) :=
  match l with
  | [] => inr []
  | v :: l' =>
      match elem path v with
      | inl p => inl p
      | inr x =>
          match to_elements elem path l' with
          | inl p => inl p
          | inr xs => inr (x :: xs)
          end
      end
  end.

Definition to_table (path : list string) (v : value) : decoded table :=
match v with
| VTable t => inr t
| _ => inl path
end.

(** A slice target takes an array. *)
Definition to_slice {T : Type} (elem : list string -> value -> decoded T)
    (path : list string) (v : value) : decoded (list T) :=
  match v with
  | VArray l => to_elements elem path l
  | _ => inl path
  end.

(** A struct target is described by its tagged fields: what a key's
    value does to the struct. A key is matched with a tag as it is spelled,
    and a key without a field is skipped. *)
Definition fields (T : Type) : Type :=
  string -> option (list string -> value -> T -> decoded T).

(** A field that is decoded by [dec] and stored by [upd]. *)
Definition field {T A : Type} (dec : list string -> value -> decoded A)
  (upd : A -> T -> T) : list string -> value -> T -> decoded T :=
fun p v x =>
  match dec p v with
  | inl q => inl q
  | inr a => inr (upd a x)
  end.

(** The keys of a table are decoded in their order in the file, each
    into the field tagged with it. *)
Fixpoint to_fields {T : Type} (fs : fields T) (path : list string)
    (t : table) (x : T) : decoded T :=
  match t with
  | [] => inr x
  | (k, v) :: t' =>
      match fs k with
      | None => to_fields fs path t' x
      | Some f =>
          match f (path ++ [k]) v x with
          | inl p => inl p
          | inr x' => to_fields fs path t' x'
          end
      end
  end.

Definition to_struct {T : Type} (fs : fields T) (path : list string)
    (v : value) (x : T) : decoded T :=
  match v with
  | VTable t => to_fields fs path t x
  | _ => inl path
  end.

(** The [*DecodeError] of a value that does not fit its target. *)
Definition mismatch (locate : list string -> Z * Z) (path : list string)
  : DecodeError :=
  mkDecodeError ("toml: cannot decode " +:+ join "." path)
                (fst (locate path)) (snd (locate path)).

(** [toml.NewDecoder(f).Decode(&x)] on the contents of the open file. *)
Definition Decode {T : Type} (c : contents) (unmarshal : table -> decoded T)
  : error + T :=
  match c with
  | Malformed derr => inl (TomlDecodeError derr)
  | Document doc locate =>
      match unmarshal doc with
      | inl p => inl (TomlDecodeError (mismatch locate p))
      | inr x => inr x
      end
  end.

(** Decoding into a [map[string]interface{}] takes every document. *)
Definition to_map (doc : table) : decoded table := inr doc.

(** The encoder writes a table, or a non-empty array of tables, under a
    header of its own. *)
Definition is_table (v : value) : bool :=
  match v with
  | VTable _ => true
  | _ => false
  end.

Definition under_header (v : value) : bool :=
  match v with
  | VTable _ => true
  | VArray (x :: l) => forallb is_table (x :: l)
  | _ => false
  end.

Fixpoint present (l : list (string * option value)) : table :=
  match l with
  | [] => []
  | (k, Some v) :: l' => (k, v) :: present l'
  | (_, None) :: l' => present l'
  end.

(** [toml.NewEncoder(f).Encode(x)] for a struct x given by its tagged
    fields: a nil field is left out, plain keys come first, the tables
    after them. *)
Definition Encode (x : list (string * option value)) : table :=
  List.filter (fun kv => negb (under_header (snd kv))) (present x)
  ++ List.filter (fun kv => under_header (snd kv)) (present x).

End toml.

(** ** layermetadata.go *)

Record LayerMetadataFile : Type := mkLayerMetadataFile {
  Data : option value;
  Build : bool;
  Launch : bool;
  Cache : bool
}.

(** [LayerMetadataFile{}]. *)
Definition LayerMetadataFile_zero : LayerMetadataFile :=
  mkLayerMetadataFile None false false false.

(** What [Decode] returns: the value, the message, the error. *)
Abbreviation decode_result := (LayerMetadataFile * string * option error)%type.

(** The [toml] tags of [LayerMetadataFile]. *)
Definition LayerMetadataFile_fields : toml.fields LayerMetadataFile :=
  fun key =>
    if String.eqb key "metadata" then
      Some (fun _ v x => inr (mkLayerMetadataFile (Some v) (Build x) (Launch x) (Cache x)))
    else if String.eqb key "build" then
      Some (toml.field toml.to_bool (fun b x => mkLayerMetadataFile (Data x) b (Launch x) (Cache x)))
    else if String.eqb key "launch" then
      Some (toml.field toml.to_bool (fun b x => mkLayerMetadataFile (Data x) (Build x) b (Cache x)))
    else if String.eqb key "cache" then
      Some (toml.field toml.to_bool (fun b x => mkLayerMetadataFile (Data x) (Build x) (Launch x) b))
    else None.

(** The [typesTable] and [layerMetadataTomlFile] of [defaultEncoderDecoder.Decode]. *)
Record typesTable : Type := mkTypesTable {
  tt_Build : bool;
  tt_Launch : bool;
  tt_Cache : bool
}.

Record layerMetadataTomlFile : Type := mkLayerMetadataTomlFile {
  lmtf_Data : option value;
  lmtf_Types : typesTable
}.

Definition typesTable_fields : toml.fields typesTable :=
  fun key =>
    if String.eqb key "build" then
      Some (toml.field toml.to_bool (fun b x => mkTypesTable b (tt_Launch x) (tt_Cache x)))
    else if String.eqb key "launch" then
      Some (toml.field toml.to_bool (fun b x => mkTypesTable (tt_Build x) b (tt_Cache x)))
    else if String.eqb key "cache" then
      Some (toml.field toml.to_bool (fun b x => mkTypesTable (tt_Build x) (tt_Launch x) b))
    else None.

Definition layerMetadataTomlFile_fields : toml.fields layerMetadataTomlFile :=
  fun key =>
    if String.eqb key "metadata" then
      Some (fun _ v x => inr (mkLayerMetadataTomlFile (Some v) (lmtf_Types x)))
    else if String.eqb key "types" then
      Some (fun p v x => match toml.to_struct typesTable_fields p v (lmtf_Types x) with
                         | inl q => inl q
                         | inr t => inr (mkLayerMetadataTomlFile (lmtf_Data x) t)
                         end)
    else None.

(** The loop of [typesInTopLevel] over the keys. *)
Fixpoint has_any (python : table) (stuffYoureNotSposedToHave : list string) : bool :=
  match stuffYoureNotSposedToHave with
  | [] => false
  | key :: rest =>
      match get python key with
      | Some _ => true
      | None => has_any python rest
      end
  end.

Definition typesInTopLevel (fs : filesystem) (path : string)
    (stuffYoureNotSposedToHave : list string) : bool * option error :=
  match os_Open fs path with
  | inl err => (false, Some err)
  | inr c =>
      match toml.Decode c toml.to_map with
      | inl err => (false, Some err)
      | inr python => (has_any python stuffYoureNotSposedToHave, None)
      end
  end.

(** The [encoderDecoder] interface. [Encode] gets the open file as the
    file system and the path it was created at. *)
Record encoderDecoder : Type := mkEncoderDecoder {
  IsSupported : string -> option bool;
  Encode : filesystem -> string -> LayerMetadataFile -> filesystem * option error;
  Decode : filesystem -> string -> decode_result
}.

(** [api.MustParse(buildpackAPI).AtLeast("0.6")]; [None] is a panic. *)
Definition defaultEncoderDecoder_IsSupported (buildpackAPI : string) : option bool :=
  match api.MustParse buildpackAPI with
  | Some v => api.AtLeast v "0.6"
  | None => None
  end.

(** The encoder gets a [dataTomlFile]: the flags are not among its fields. *)
Definition defaultEncoderDecoder_Encode (fs : filesystem) (file : string)
    (lmf : LayerMetadataFile) : filesystem * option error :=
  let dtf := [("metadata", Data lmf)] in
  (write fs file (toml.Encode dtf), None).

Definition types_message (path : string) : string :=
  "the launch, cache and build flags should be in the types table of " +:+ path.

Definition layerMetadataTomlFile_zero : layerMetadataTomlFile :=
  mkLayerMetadataTomlFile None (mkTypesTable false false false).

(** Decoding into [var lmtf layerMetadataTomlFile]. *)
Definition unmarshal_layerMetadataTomlFile (doc : table)
  : toml.decoded layerMetadataTomlFile :=
  toml.to_fields layerMetadataTomlFile_fields [] doc layerMetadataTomlFile_zero.

Definition defaultEncoderDecoder_Decode (fs : filesystem) (path : string)
  : decode_result :=
  let '(topLevelSchemaInvalid, err) :=
    typesInTopLevel fs path ["build"; "launch"; "cache"] in
  match err with
  | Some err => (LayerMetadataFile_zero, "", Some err)
  | None =>
      let msg := if topLevelSchemaInvalid then types_message path else "" in
      match os_Open fs path with
      | inl err => (LayerMetadataFile_zero, msg, Some err)
      | inr c =>
          match toml.Decode c unmarshal_layerMetadataTomlFile with
          | inl err =>
              match errors_As_DecodeError err with
              | Some derr => (LayerMetadataFile_zero, msg, Some (position_error derr))
              | None => (LayerMetadataFile_zero, msg, Some err)
              end
          | inr lmtf =>
              (mkLayerMetadataFile (lmtf_Data lmtf) (tt_Build (lmtf_Types lmtf))
                 (tt_Launch (lmtf_Types lmtf)) (tt_Cache (lmtf_Types lmtf)),
               msg, None)
          end
      end
  end.

Definition defaultEncoderDecoder : encoderDecoder :=
  mkEncoderDecoder defaultEncoderDecoder_IsSupported
    defaultEncoderDecoder_Encode defaultEncoderDecoder_Decode.

(** [api.MustParse(buildpackAPI).LessThan("0.6")]. *)
Definition legacyEncoderDecoder_IsSupported (buildpackAPI : string) : option bool :=
  match api.MustParse buildpackAPI with
  | Some v => api.LessThan v "0.6"
  | None => None
  end.

(** The encoder gets the [LayerMetadataFile] itself. *)
Definition legacyEncoderDecoder_Encode (fs : filesystem) (file : string)
    (lmf : LayerMetadataFile) : filesystem * option error :=
  (write fs file
     (toml.Encode [("metadata", Data lmf);
                   ("build", Some (VBool (Build lmf)));
                   ("launch", Some (VBool (Launch lmf)));
                   ("cache", Some (VBool (Cache lmf)))]),
   None).

Definition legacy_message : string :=
  "Types table isn't supported in this buildpack api version. The launch, build and cache flags should be in the top level. Ignoring the values in the types table.".

(** Decoding into [var lmf LayerMetadataFile]. *)
Definition unmarshal_LayerMetadataFile (doc : table)
  : toml.decoded LayerMetadataFile :=
  toml.to_fields LayerMetadataFile_fields [] doc LayerMetadataFile_zero.

Definition legacyEncoderDecoder_Decode (fs : filesystem) (path : string)
  : decode_result :=
  let '(topLevelSchemaInvalid, err) := typesInTopLevel fs path ["types"] in
  match err with
  | Some err => (LayerMetadataFile_zero, "", Some err)
  | None =>
      let msg := if topLevelSchemaInvalid then legacy_message else "" in
      match os_Open fs path with
      | inl err => (LayerMetadataFile_zero, "", Some err)
      | inr c =>
          match toml.Decode c unmarshal_LayerMetadataFile with
          | inl err =>
              match errors_As_DecodeError err with
              | Some derr => (LayerMetadataFile_zero, msg, Some (position_error derr))
              | None => (LayerMetadataFile_zero, msg, Some err)
              end
          | inr lmf => (lmf, msg, None)
          end
      end
  end.

Definition legacyEncoderDecoder : encoderDecoder :=
  mkEncoderDecoder legacyEncoderDecoder_IsSupported
    legacyEncoderDecoder_Encode legacyEncoderDecoder_Decode.

Definition supportedEncoderDecoders : list encoderDecoder :=
  [defaultEncoderDecoder; legacyEncoderDecoder].

(** The loop of [EncodeLayerMetadataFile] over the encoders. *)
Fixpoint encode_first (encoders : list encoderDecoder) (fs : filesystem)
    (path : string) (lmf : LayerMetadataFile) (buildpackAPI : string)
  : filesystem * outcome (option error) :=
  match encoders with
  | [] => (fs, Return (Some (ErrorString "couldn't find an encoder")))
  | encoder :: rest =>
      match IsSupported encoder buildpackAPI with
      | None => (fs, Panic)
      | Some true =>
          let '(fs', err) := Encode encoder fs path lmf in (fs', Return err)
      | Some false => encode_first rest fs path lmf buildpackAPI
      end
  end.

Definition EncodeLayerMetadataFile (fs : filesystem) (lmf : LayerMetadataFile)
    (path buildpackAPI : string) : filesystem * outcome (option error) :=
  let '(fs', err) := os_Create fs path in
  match err with
  | Some err => (fs', Return (Some err))
  | None => encode_first supportedEncoderDecoders fs' path lmf buildpackAPI
  end.

(** The loop of [DecodeLayerMetadataFile] over the decoders. *)
Fixpoint decode_first (decoders : list encoderDecoder) (fs : filesystem)
    (path buildpackAPI : string) : outcome decode_result :=
  match decoders with
  | [] => Return (LayerMetadataFile_zero, "",
                  Some (ErrorString "couldn't find a decoder"))
  | decoder :: rest =>
      match IsSupported decoder buildpackAPI with
      | None => Panic
      | Some true => Return (Decode decoder fs path)
      | Some false => decode_first rest fs path buildpackAPI
      end
  end.

Definition DecodeLayerMetadataFile (fs : filesystem) (path buildpackAPI : string)
  : outcome decode_result :=
  match os_Open fs path with
  | inl err =>
      if os_IsNotExist (Some err) then Return (LayerMetadataFile_zero, "", None)
      else Return (LayerMetadataFile_zero, "", Some err)
  | inr _ => decode_first supportedEncoderDecoders fs path buildpackAPI
  end.

(** ** Packages the data format file imports *)

Module layers.

(** Modelled from the spec: [layers.Slice], which is not among the sources;
    the spec has the slices of a launch descriptor as opaque. *)
Record Slice : Type := mkSlice { Raw : value }.

End layers.

Module launch.

(** Modelled from the spec: [launch.RawCommand] and [launch.NewRawCommand],
    which are not among the sources; the command of a process descriptor is
    its list of strings. *)
Record RawCommand : Type := mkRawCommand { Entries : list string }.

Definition NewRawCommand (command : list string) : RawCommand :=
  mkRawCommand command.

(** Modelled from the spec: [launch.Process], which is not among the
    sources; the fields are those [ToLaunchProcess] fills. *)
Record Process : Type := mkProcess {
  Type_ : string;
  Command : RawCommand;
  Args : list string;
  Direct : bool;
  Default : bool;
  BuildpackID : string;
  WorkingDirectory : string
}.

End launch.

(** Modelled from the spec: [GroupElement], which is not among the sources;
    the spec has a buildpack identity as an id and a version. *)
Record GroupElement : Type := mkGroupElement {
  GroupElement_ID : string;
  GroupElement_Version : string
}.

Definition GroupElement_zero : GroupElement := mkGroupElement "" "".

Definition GroupElement_fields : toml.fields GroupElement :=
  fun key =>
    if String.eqb key "id" then
      Some (fun p v x => match toml.to_string p v with
                         | inl q => inl q
                         | inr s => inr (mkGroupElement s (GroupElement_Version x))
                         end)
    else if String.eqb key "version" then
      Some (fun p v x => match toml.to_string p v with
                         | inl q => inl q
                         | inr s => inr (mkGroupElement (GroupElement_ID x) s)
                         end)
    else None.

(** ** The data format file: requirements *)

(** [Metadata] is a map that can be nil. *)
Record Require : Type := mkRequire {
  Name : string;
  Version : string;
  Metadata : option table
}.

Definition Require_zero : Require := mkRequire "" "" None.

(** [m[key]] on a map that can be nil. *)
Definition index (m : option table) (key : string) : option value :=
  match m with
  | Some m => get m key
  | None => None
  end.

Definition Require_convertMetadataToVersion (r : Require) : Require :=
  match index (Metadata r) "version" with
  | Some version => mkRequire (Name r) (Sprintf_v version) (Metadata r)
  | None => r
  end.

Definition Require_ConvertVersionToMetadata (r : Require) : Require :=
  if negb (String.eqb (Version r) "") then
    let m := match Metadata r with
             | None => []
             | Some m => m
             end in
    mkRequire (Name r) "" (Some (put m "version" (VString (Version r))))
  else r.

Definition hasDoublySpecifiedVersions (r : Require) : bool :=
  match index (Metadata r) "version" with
  | Some _ => negb (String.eqb (Version r) "")
  | None => false
  end.

Definition hasInconsistentVersions (r : Require) : bool :=
  match index (Metadata r) "version" with
  | Some version =>
      negb (String.eqb (Version r) "")
      && negb (string_eq_iface (Version r) version)
  | None => false
  end.

Definition hasTopLevelVersions (r : Require) : bool :=
  negb (String.eqb (Version r) "").

Record BOMEntry : Type := mkBOMEntry {
  BOMEntry_Require : Require;
  Buildpack : GroupElement
}.

Definition BOMEntry_ConvertMetadataToVersion (bom : BOMEntry) : BOMEntry :=
  match index (Metadata (BOMEntry_Require bom)) "version" with
  | Some version =>
      let metadataVersion := Sprintf_v version in
      mkBOMEntry (mkRequire (Name (BOMEntry_Require bom)) metadataVersion
                    (Metadata (BOMEntry_Require bom)))
                 (Buildpack bom)
  | None => bom
  end.

Definition BOMEntry_convertVersionToMetadata (bom : BOMEntry) : BOMEntry :=
  if negb (String.eqb (Version (BOMEntry_Require bom)) "") then
    let m := match Metadata (BOMEntry_Require bom) with
             | None => []
             | Some m => m
             end in
    mkBOMEntry (mkRequire (Name (BOMEntry_Require bom)) ""
                  (Some (put m "version" (VString (Version (BOMEntry_Require bom))))))
               (Buildpack bom)
  else bom.

Record Label : Type := mkLabel { Key : string; Value : string }.

Record Unmet : Type := mkUnmet { Unmet_Name : string }.

Record Provide : Type := mkProvide { Provide_Name : string }.

Record PlanSections : Type := mkPlanSections {
  Requires : list Require;
  Provides : list Provide
}.

(** The loops over [p.Requires]: the first requirement that has the
    property ends them. *)
Fixpoint any_Require (has : Require -> bool) (reqs : list Require) : bool :=
  match reqs with
  | [] => false
  | req :: rest => if has req then true else any_Require has rest
  end.

Definition PlanSections_hasInconsistentVersions (p : PlanSections) : bool :=
  any_Require hasInconsistentVersions (Requires p).

Definition PlanSections_hasDoublySpecifiedVersions (p : PlanSections) : bool :=
  any_Require hasDoublySpecifiedVersions (Requires p).

Definition PlanSections_hasTopLevelVersions (p : PlanSections) : bool :=
  any_Require hasTopLevelVersions (Requires p).

Definition PlanSections_hasRequires (p : PlanSections) : bool :=
  (0 <? Z.of_nat (length (Requires p))).

Abbreviation planSectionsList := (list PlanSections).

Fixpoint any_PlanSections (has : PlanSections -> bool) (p : planSectionsList)
  : bool :=
  match p with
  | [] => false
  | planSection :: rest =>
      if has planSection then true else any_PlanSections has rest
  end.

Definition planSectionsList_hasInconsistentVersions (p : planSectionsList) : bool :=
  any_PlanSections PlanSections_hasInconsistentVersions p.

Definition planSectionsList_hasDoublySpecifiedVersions (p : planSectionsList) : bool :=
  any_PlanSections PlanSections_hasDoublySpecifiedVersions p.

Definition planSectionsList_hasTopLevelVersions (p : planSectionsList) : bool :=
  any_PlanSections PlanSections_hasTopLevelVersions p.

Definition planSectionsList_hasRequires (p : planSectionsList) : bool :=
  any_PlanSections PlanSections_hasRequires p.

Record BuildPlan : Type := mkBuildPlan {
  BuildPlan_PlanSections : PlanSections;
  Or : planSectionsList
}.

(** ** The data format file: buildpack plan *)

Record Plan : Type := mkPlan { Entries : list Require }.

Fixpoint containsName (unmet : list Unmet) (name : string) : bool :=
  match unmet with
  | [] => false
  | u :: rest =>
      if String.eqb (Unmet_Name u) name then true else containsName rest name
  end.

(** [out] starts nil and gets the kept entries appended, one by one. *)
Definition Plan_filter (p : Plan) (unmet : list Unmet) : Plan :=
  let out :=
    fold_left (fun out entry =>
                 if negb (containsName unmet (Name entry)) then out ++ [entry]
                 else out)
              (Entries p) [] in
  mkPlan out.

Definition Plan_toBOM (p : Plan) : list BOMEntry :=
  fold_left (fun bom entry => bom ++ [mkBOMEntry entry GroupElement_zero])
            (Entries p) [].

(** ** The data format file: launch.toml *)

Definition Require_fields : toml.fields Require :=
  fun key =>
    if String.eqb key "name" then
      Some (toml.field toml.to_string
              (fun s x => mkRequire s (Version x) (Metadata x)))
    else if String.eqb key "version" then
      Some (toml.field toml.to_string
              (fun s x => mkRequire (Name x) s (Metadata x)))
    else if String.eqb key "metadata" then
      Some (toml.field toml.to_table
              (fun m x => mkRequire (Name x) (Version x) (Some m)))
    else None.

(** The fields of the embedded [Require] are fields of the [BOMEntry]. *)
Definition BOMEntry_fields : toml.fields BOMEntry :=
  fun key =>
    if String.eqb key "buildpack" then
      Some (fun p v x =>
              match toml.to_struct GroupElement_fields p v (Buildpack x) with
              | inl q => inl q
              | inr g => inr (mkBOMEntry (BOMEntry_Require x) g)
              end)
    else
      match Require_fields key with
      | Some f =>
          Some (fun p v x =>
                  match f p v (BOMEntry_Require x) with
                  | inl q => inl q
                  | inr r => inr (mkBOMEntry r (Buildpack x))
                  end)
      | None => None
      end.

Definition BOMEntry_zero : BOMEntry := mkBOMEntry Require_zero GroupElement_zero.

Definition Label_fields : toml.fields Label :=
  fun key =>
    if String.eqb key "key" then
      Some (toml.field toml.to_string (fun s x => mkLabel s (Value x)))
    else if String.eqb key "value" then
      Some (toml.field toml.to_string (fun s x => mkLabel (Key x) s))
    else None.

Record ProcessEntry : Type := mkProcessEntry {
  Type_ : string;
  Command : list string;
  RawCommandValue : list string;
  Args : list string;
  Direct : option bool;
  Default : bool;
  WorkingDirectory : string
}.

(** [ProcessEntry{}]. *)
Definition ProcessEntry_zero : ProcessEntry :=
  mkProcessEntry "" [] [] [] None false "".

(** [Command] has the tag [toml:"-"]: no key decodes into it. *)
Definition ProcessEntry_fields : toml.fields ProcessEntry :=
  fun key =>
    if String.eqb key "type" then
      Some (toml.field toml.to_string
              (fun s x => mkProcessEntry s (Command x) (RawCommandValue x)
                            (Args x) (Direct x) (Default x) (WorkingDirectory x)))
    else if String.eqb key "command" then
      Some (toml.field (toml.to_slice toml.to_string)
              (fun l x => mkProcessEntry (Type_ x) (Command x) l
                            (Args x) (Direct x) (Default x) (WorkingDirectory x)))
    else if String.eqb key "args" then
      Some (toml.field (toml.to_slice toml.to_string)
              (fun l x => mkProcessEntry (Type_ x) (Command x) (RawCommandValue x)
                            l (Direct x) (Default x) (WorkingDirectory x)))
    else if String.eqb key "direct" then
      Some (toml.field toml.to_bool
              (fun b x => mkProcessEntry (Type_ x) (Command x) (RawCommandValue x)
                            (Args x) (Some b) (Default x) (WorkingDirectory x)))
    else if String.eqb key "default" then
      Some (toml.field toml.to_bool
              (fun b x => mkProcessEntry (Type_ x) (Command x) (RawCommandValue x)
                            (Args x) (Direct x) b (WorkingDirectory x)))
    else if String.eqb key "working-dir" then
      Some (toml.field toml.to_string
              (fun s x => mkProcessEntry (Type_ x) (Command x) (RawCommandValue x)
                            (Args x) (Direct x) (Default x) s))
    else None.

Record LaunchTOML : Type := mkLaunchTOML {
  BOM : list BOMEntry;
  Labels : list Label;
  Processes : list ProcessEntry;
  Slices : list layers.Slice
}.

(** A slice field is decoded from an array, each element into a zero
    value of its struct; the field then holds the decoded elements. The keys
    of the untagged fields [BOM] and [Labels] are taken in lower case, as the
    launch descriptor file spells them. *)
Definition LaunchTOML_fields : toml.fields LaunchTOML :=
  fun key =>
    if String.eqb key "bom" then
      Some (toml.field
              (toml.to_slice (fun p v => toml.to_struct BOMEntry_fields p v BOMEntry_zero))
              (fun l x => mkLaunchTOML l (Labels x) (Processes x) (Slices x)))
    else if String.eqb key "labels" then
      Some (toml.field
              (toml.to_slice (fun p v => toml.to_struct Label_fields p v (mkLabel "" "")))
              (fun l x => mkLaunchTOML (BOM x) l (Processes x) (Slices x)))
    else if String.eqb key "processes" then
      Some (toml.field
              (toml.to_slice (fun p v => toml.to_struct ProcessEntry_fields p v ProcessEntry_zero))
              (fun l x => mkLaunchTOML (BOM x) (Labels x) l (Slices x)))
    else if String.eqb key "slices" then
      Some (toml.field
              (toml.to_slice (fun _ v => inr (layers.mkSlice v)))
              (fun l x => mkLaunchTOML (BOM x) (Labels x) (Processes x) l))
    else None.

Module BeforeV9.

(** [ProcessEntryBeforeV9]: [RawCommandValue] is one string. *)
Record ProcessEntryBeforeV9 : Type := mkProcessEntryBeforeV9 {
  Type_ : string;
  Command : list string;
  RawCommandValue : string;
  Args : list string;
  Direct : option bool;
  Default : bool;
  WorkingDirectory : string
}.

Definition ProcessEntryBeforeV9_zero : ProcessEntryBeforeV9 :=
  mkProcessEntryBeforeV9 "" [] "" [] None false "".

Definition ProcessEntryBeforeV9_fields : toml.fields ProcessEntryBeforeV9 :=
  fun key =>
    if String.eqb key "type" then
      Some (toml.field toml.to_string
              (fun s x => mkProcessEntryBeforeV9 s (Command x) (RawCommandValue x)
                            (Args x) (Direct x) (Default x) (WorkingDirectory x)))
    else if String.eqb key "command" then
      Some (toml.field toml.to_string
              (fun s x => mkProcessEntryBeforeV9 (Type_ x) (Command x) s
                            (Args x) (Direct x) (Default x) (WorkingDirectory x)))
    else if String.eqb key "args" then
      Some (toml.field (toml.to_slice toml.to_string)
              (fun l x => mkProcessEntryBeforeV9 (Type_ x) (Command x)
                            (RawCommandValue x) l (Direct x) (Default x)
                            (WorkingDirectory x)))
    else if String.eqb key "direct" then
      Some (toml.field toml.to_bool
              (fun b x => mkProcessEntryBeforeV9 (Type_ x) (Command x)
                            (RawCommandValue x) (Args x) (Some b) (Default x)
                            (WorkingDirectory x)))
    else if String.eqb key "default" then
      Some (toml.field toml.to_bool
              (fun b x => mkProcessEntryBeforeV9 (Type_ x) (Command x)
                            (RawCommandValue x) (Args x) (Direct x) b
                            (WorkingDirectory x)))
    else if String.eqb key "working-dir" then
      Some (toml.field toml.to_string
              (fun s x => mkProcessEntryBeforeV9 (Type_ x) (Command x)
                            (RawCommandValue x) (Args x) (Direct x) (Default x) s))
    else None.

Record LaunchTOMLBeforeV9 : Type := mkLaunchTOMLBeforeV9 {
  BOM : list BOMEntry;
  Labels : list Label;
  Processes : list ProcessEntryBeforeV9;
  Slices : list layers.Slice
}.

Definition LaunchTOMLBeforeV9_zero : LaunchTOMLBeforeV9 :=
  mkLaunchTOMLBeforeV9 [] [] [] [].

Definition LaunchTOMLBeforeV9_fields : toml.fields LaunchTOMLBeforeV9 :=
  fun key =>
    if String.eqb key "bom" then
      Some (toml.field
              (toml.to_slice (fun p v => toml.to_struct BOMEntry_fields p v BOMEntry_zero))
              (fun l x => mkLaunchTOMLBeforeV9 l (Labels x) (Processes x) (Slices x)))
    else if String.eqb key "labels" then
      Some (toml.field
              (toml.to_slice (fun p v => toml.to_struct Label_fields p v (mkLabel "" "")))
              (fun l x => mkLaunchTOMLBeforeV9 (BOM x) l (Processes x) (Slices x)))
    else if String.eqb key "processes" then
      Some (toml.field
              (toml.to_slice (fun p v =>
                 toml.to_struct ProcessEntryBeforeV9_fields p v ProcessEntryBeforeV9_zero))
              (fun l x => mkLaunchTOMLBeforeV9 (BOM x) (Labels x) l (Slices x)))
    else if String.eqb key "slices" then
      Some (toml.field
              (toml.to_slice (fun _ v => inr (layers.mkSlice v)))
              (fun l x => mkLaunchTOMLBeforeV9 (BOM x) (Labels x) (Processes x) l))
    else None.

End BeforeV9.

(** Decoding into [ltb := LaunchTOMLBeforeV9{}]. *)
Definition unmarshal_LaunchTOMLBeforeV9 (doc : table)
  : toml.decoded BeforeV9.LaunchTOMLBeforeV9 :=
  toml.to_fields BeforeV9.LaunchTOMLBeforeV9_fields [] doc
    BeforeV9.LaunchTOMLBeforeV9_zero.

(** Decoding into the caller's [launchTOML]. *)
Definition unmarshal_LaunchTOML (launchTOML : LaunchTOML) (doc : table)
  : toml.decoded LaunchTOML :=
  toml.to_fields LaunchTOML_fields [] doc launchTOML.

(** The body of the loop over [ltb.Processes]: the new entry [np]. *)
Definition shim (proc : BeforeV9.ProcessEntryBeforeV9) : ProcessEntry :=
  mkProcessEntry
    (BeforeV9.Type_ proc)
    (BeforeV9.Command proc)
    (if (0 <? Z.of_nat (String.length (BeforeV9.RawCommandValue proc)))
     then [BeforeV9.RawCommandValue proc] else [])
    (BeforeV9.Args proc)
    (BeforeV9.Direct proc)
    (BeforeV9.Default proc)
    (BeforeV9.WorkingDirectory proc).

Definition direct_error : error :=
  ErrorString "process.direct is not supported on this buildpack version".

(** [launchTOML.Processes[i].Direct = direct] (when [direct] is given) and
    [launchTOML.Processes[i].Command = process.RawCommandValue]. *)
Definition resolve (direct : option bool) (process : ProcessEntry) : ProcessEntry :=
  mkProcessEntry (Type_ process) (RawCommandValue process)
    (RawCommandValue process) (Args process)
    (match direct with
     | Some b => Some b
     | None => Direct process
     end)
    (Default process) (WorkingDirectory process).

(** The loop over [launchTOML.Processes]: the entries as the loop leaves
    them, and the error it returns with, if any. The entries from the one
    the loop returns at are as they were. *)
Fixpoint normalize (commandsAreStrings : bool) (processes : list ProcessEntry)
  : list ProcessEntry * option error :=
  match processes with
  | [] => ([], None)
  | process :: rest =>
      if commandsAreStrings then
        let direct := match Direct process with
                      | None => Some false
                      | Some _ => None
                      end in
        let '(rest', err) := normalize commandsAreStrings rest in
        (resolve direct process :: rest', err)
      else
        match Direct process with
        | Some _ => (process :: rest, Some direct_error)
        | None =>
            let '(rest', err) := normalize commandsAreStrings rest in
            (resolve None process :: rest', err)
        end
  end.

(** The error a failed decode is returned as. *)
Definition decode_error (err : error) : error :=
  match errors_As_DecodeError err with
  | Some derr => position_error derr
  | None => err
  end.

(** [DecodeLaunchTOML] returns what [*launchTOML] holds afterwards and the
    error. A decode that fails is taken to leave the target as it was. *)
Definition DecodeLaunchTOML (fs : filesystem) (launchPath bpAPI : string)
    (launchTOML : LaunchTOML) : outcome (LaunchTOML * option error) :=
  match os_Open fs launchPath with
  | inl err => Return (launchTOML, Some err)
  | inr c =>
      match match api.MustParse bpAPI with
            | Some v => api.LessThan v "0.9"
            | None => None
            end with
      | None => Panic
      | Some commandsAreStrings =>
          let decoded :=
            if commandsAreStrings then
              match toml.Decode c unmarshal_LaunchTOMLBeforeV9 with
              | inl err => inl (decode_error err)
              | inr ltb =>
                  inr (mkLaunchTOML (BeforeV9.BOM ltb) (BeforeV9.Labels ltb)
                         (fold_left (fun processes proc => processes ++ [shim proc])
                            (BeforeV9.Processes ltb) (Processes launchTOML))
                         (BeforeV9.Slices ltb))
              end
            else
              match toml.Decode c (unmarshal_LaunchTOML launchTOML) with
              | inl err => inl (decode_error err)
              | inr lt => inr lt
              end in
          match decoded with
          | inl err => Return (launchTOML, Some err)
          | inr lt =>
              let '(processes, err) := normalize commandsAreStrings (Processes lt) in
              Return (mkLaunchTOML (BOM lt) (Labels lt) processes (Slices lt), err)
          end
      end
  end.

Definition ToLaunchProcess (p : ProcessEntry) (bpID : string) : launch.Process :=
  let direct := match Direct p with
                | None => true
                | Some b => b
                end in
  launch.mkProcess (Type_ p) (launch.NewRawCommand (Command p)) (Args p)
    direct (Default p) bpID (WorkingDirectory p).

Definition ToLaunchProcessesForBuildpack (lt : LaunchTOML) (bpID : string)
  : list launch.Process :=
  fold_left (fun processes process => processes ++ [ToLaunchProcess process bpID])
            (Processes lt) [].

(** ** internal/toml/utils.go *)



(** Whether a message has a line break. *)
Fixpoint has_newline (s : string) : bool :=
  match s with
  | EmptyString => false
  | String c s' => if Ascii.eqb c "010" then true else has_newline s'
  end.

(** * Properties *)

Example roundtrip_current :
  let v := mkLayerMetadataFile (Some (VTable [("k", VInt 3)])) true false true in
  let '(fs, r) := EncodeLayerMetadataFile ∅ v "/l/a.toml" "0.7" in
  (r, DecodeLayerMetadataFile fs "/l/a.toml" "0.7")
  = (Return None, Return (mkLayerMetadataFile (Data v) false false false, "", None)).
Proof. vm_compute. reflexivity. Qed.

Example roundtrip_legacy :
  let v := mkLayerMetadataFile (Some (VTable [("k", VInt 3)])) true false true in
  let '(fs, r) := EncodeLayerMetadataFile ∅ v "/l/a.toml" "0.5" in
  (r, DecodeLayerMetadataFile fs "/l/a.toml" "0.5")
  = (Return None, Return (v, "", None)).
Proof. vm_compute. reflexivity. Qed.

(** ** Which strategy a version selects *)









(** ** Layer metadata files *)

(** C5: decoding a layer metadata file that does not exist returns the
    zero value, an empty message and no error, whatever the API version
    string is. *)
Theorem DecodeLayerMetadataFile_not_exist
    (fs : filesystem) (path buildpackAPI : string) :
  fs !! path = None ->
  DecodeLayerMetadataFile fs path buildpackAPI
  = Return (LayerMetadataFile_zero, "", None).
Proof.
  intros Hnone. unfold DecodeLayerMetadataFile, os_Open. by rewrite Hnone.
Qed.

Lemma DecodeLayerMetadataFile_not_exist_witness :
  DecodeLayerMetadataFile (<["/layers/b.toml" := Locked]> ∅) "/layers/a.toml" "not a version"
  = Return (LayerMetadataFile_zero, "", None).
Proof.
  apply (DecodeLayerMetadataFile_not_exist
           (<["/layers/b.toml" := Locked]> ∅) "/layers/a.toml" "not a version").
  vm_compute. reflexivity.
Defined.







(** A file with a syntax error, under the current strategy: the scan
    returns the decode error and no message. *)
Example syntax_error_current :
  DecodeLayerMetadataFile
    (<["/layers/a.toml" := File (Malformed (mkDecodeError "toml: expected =" 1 7))]> ∅)
    "/layers/a.toml" "0.8"
  = Return (LayerMetadataFile_zero, "",
            Some (TomlDecodeError (mkDecodeError "toml: expected =" 1 7))).
Proof. vm_compute. reflexivity. Qed.

(** The schema messages of the specification: flags at the top level of
    a current file, a types table in a legacy file. Both files decode. *)
Example current_flags_at_top_level :
  DecodeLayerMetadataFile
    (<["/layers/a.toml" :=
         File (Document [("build", VBool true); ("metadata", VTable [])]
                        (fun _ => (1, 1)))]> ∅)
    "/layers/a.toml" "0.6"
  = Return (mkLayerMetadataFile (Some (VTable [])) false false false,
            types_message "/layers/a.toml", None).
Proof. vm_compute. reflexivity. Qed.

Example legacy_types_table :
  DecodeLayerMetadataFile
    (<["/layers/a.toml" :=
         File (Document [("launch", VBool true);
                         ("types", VTable [("build", VBool true)])]
                        (fun _ => (1, 1)))]> ∅)
    "/layers/a.toml" "0.5"
  = Return (mkLayerMetadataFile None false true false, legacy_message, None).
Proof. vm_compute. reflexivity. Qed.

(** ** Requirements *)

Lemma string_eq_iface_true (s : string) (v : value) :
  string_eq_iface s v = true <-> v = VString s.
Proof.
  destruct v; simpl; try (split; [discriminate|intros [=]]).
  rewrite String.eqb_eq. split; [by intros ->|by intros [= ->]].
Qed.

Lemma nonempty_string (s : string) : negb (String.eqb s "") = true <-> s <> "".
Proof.
  rewrite negb_true_iff. destruct (String.eqb_spec s ""); split; congruence.
Qed.

(** C2, as the code has it: [hasInconsistentVersions] is true exactly when
    [Version] is not empty, [Metadata["version"]] is set, and the value
    stored there is not the string [Version]; a stored string is compared
    by its text, and a value of any other type differs from every string. *)
Theorem hasInconsistentVersions_iff (r : Require) :
  hasInconsistentVersions r = true
  <-> Version r <> ""
      /\ exists version, index (Metadata r) "version" = Some version
                         /\ version <> VString (Version r).
Proof.
  unfold hasInconsistentVersions.
  destruct (index (Metadata r) "version") as [version|].
  - rewrite andb_true_iff, nonempty_string, negb_true_iff.
    rewrite <- not_true_iff_false, string_eq_iface_true.
    split.
    + intros [Hne Hv]. split; [done|]. by exists version.
    + intros [Hne (v & [= <-] & Hv)]. done.
  - split; [discriminate|]. by intros [_ (v & [=] & _)].
Qed.

(** C2, as it is stated, fails on a version that the metadata holds as an
    integer: the string form of 11 is the [Version], and the code still
    reports the two as inconsistent. *)
Lemma hasInconsistentVersions_string_form_counterexample :
  let r := mkRequire "jdk" "11" (Some [("version", VInt 11)]) in
  ~ (hasInconsistentVersions r = true
     <-> Version r <> ""
         /\ exists version, index (Metadata r) "version" = Some version
                            /\ Sprintf_v version <> Version r).
Proof.
  simpl. intros [Hcode _].
  destruct (Hcode eq_refl) as [_ (version & [= <-] & Hdiff)].
  by apply Hdiff.
Qed.

(** The examples of the specification: both versions are strings. *)
Example hasInconsistentVersions_differ :
  hasInconsistentVersions (mkRequire "" "1.0" (Some [("version", VString "2.0")]))
  = true.
Proof. reflexivity. Qed.

Example hasInconsistentVersions_same :
  hasInconsistentVersions (mkRequire "" "1.0" (Some [("version", VString "1.0")]))
  = false.
Proof. reflexivity. Qed.

(** C10: a requirement with inconsistent versions has doubly specified
    versions. *)
Theorem inconsistent_is_doubly_specified (r : Require) :
  hasInconsistentVersions r = true -> hasDoublySpecifiedVersions r = true.
Proof.
  unfold hasInconsistentVersions, hasDoublySpecifiedVersions.
  destruct (index (Metadata r) "version"); [|done].
  by intros [H _]%andb_true_iff.
Qed.

Lemma inconsistent_is_doubly_specified_witness :
  hasDoublySpecifiedVersions
    (mkRequire "jdk" "1.0" (Some [("version", VString "2.0")])) = true.
Proof.
  apply (inconsistent_is_doubly_specified
           (mkRequire "jdk" "1.0" (Some [("version", VString "2.0")]))).
  reflexivity.
Defined.

(** ** Buildpack plan *)

Lemma containsName_elem_of (unmet : list Unmet) (name : string) :
  containsName unmet name = true <-> name ∈ Unmet_Name <$> unmet.
Proof.
  induction unmet as [|u rest IH]; simpl.
  - split; [discriminate|]. by intros ?%elem_of_nil.
  - rewrite elem_of_cons. destruct (String.eqb_spec (Unmet_Name u) name).
    + split; [by left|done].
    + rewrite IH. split; [by right|]. by intros [?|?].
Qed.

Lemma filter_loop (unmet : list Unmet) (entries out : list Require) :
  fold_left (fun out entry =>
               if negb (containsName unmet (Name entry)) then out ++ [entry]
               else out) entries out
  = out ++ filter (fun entry => Name entry ∉ Unmet_Name <$> unmet) entries.
Proof.
  revert out. induction entries as [|entry rest IH]; intros out; simpl.
  - by rewrite app_nil_r.
  - rewrite IH. destruct (containsName unmet (Name entry)) eqn:Hc; simpl.
    + rewrite filter_cons_False; [done|].
      intros Hn. by apply Hn, containsName_elem_of.
    + rewrite filter_cons_True, <- app_assoc; [done|].
      intros Hin%containsName_elem_of. congruence.
Qed.

Lemma toBOM_loop (entries : list Require) (bom : list BOMEntry) :
  fold_left (fun bom entry => bom ++ [mkBOMEntry entry GroupElement_zero])
            entries bom
  = bom ++ ((fun entry => mkBOMEntry entry GroupElement_zero) <$> entries).
Proof.
  revert bom. induction entries as [|entry rest IH]; intros bom; simpl.
  - by rewrite app_nil_r.
  - by rewrite IH, <- app_assoc.
Qed.

(** C8: [p.filter(u)] is a new plan with the entries of [p] whose name is
    not the name of an element of [u], in the order they have in [p]; and
    [toBOM] gives, entry by entry and in order, the [BOMEntry] with the entry
    as its [Require] and the zero buildpack. Both take the plan by value:
    [p] is what it was. *)
Theorem Plan_filter_toBOM (p : Plan) (u : list Unmet) :
  Entries (Plan_filter p u)
  = filter (fun entry => Name entry ∉ Unmet_Name <$> u) (Entries p)
  /\ Plan_toBOM p
     = (fun entry => mkBOMEntry entry GroupElement_zero) <$> Entries p.
Proof.
  split.
  - unfold Plan_filter. simpl. by rewrite filter_loop.
  - unfold Plan_toBOM. by rewrite toBOM_loop.
Qed.

Example Plan_filter_ABC :
  let A := mkRequire "A" "" None in
  let B := mkRequire "B" "" None in
  let C := mkRequire "C" "" None in
  Plan_filter (mkPlan [A; B; C]) [mkUnmet "B"] = mkPlan [A; C]
  /\ Plan_toBOM (mkPlan [A; C])
     = [mkBOMEntry A GroupElement_zero; mkBOMEntry C GroupElement_zero].
Proof. split; reflexivity. Qed.

(** ** Launch descriptor *)

(** C9: [ToLaunchProcess] gives a process that is direct when the entry's
    [Direct] is nil, and that has the stored value when it is set. *)
Theorem ToLaunchProcess_Direct (p : ProcessEntry) (bpID : string) :
  launch.Direct (ToLaunchProcess p bpID)
  = match Direct p with
    | None => true
    | Some b => b
    end.
Proof.
  unfold ToLaunchProcess.
  destruct (Direct p) as [b|]; reflexivity.
Qed.

Example ToLaunchProcess_nil_and_false :
  launch.Direct (ToLaunchProcess (mkProcessEntry "web" ["a"] ["a"] [] None false "") "bp") = true
  /\ launch.Direct (ToLaunchProcess (mkProcessEntry "web" ["a"] ["a"] [] (Some false) false "") "bp") = false.
Proof. split; reflexivity. Qed.

(** *** Decoding a table into a struct *)

Section to_fields.
Context {T A : Type} (fs : toml.fields T) (proj : T -> A) (key : string).

(** No field but the one tagged [key] touches the part [proj] of the
    struct. *)
Hypothesis others_keep : forall k g p v x x',
  k <> key -> fs k = Some g -> g p v x = inr x' -> proj x' = proj x.



End to_fields.




(** *** The fields of the launch descriptor *)








(** *** The loops of [DecodeLaunchTOML] *)


Lemma normalize_legacy (processes : list ProcessEntry) :
  normalize true processes
  = ((fun process =>
        resolve (match Direct process with
                 | None => Some false
                 | Some _ => None
                 end) process) <$> processes, None).
Proof.
  induction processes as [|process rest IH]; simpl; [done|]. by rewrite IH.
Qed.




Example current_command_list :
  DecodeLaunchTOML
    (<["/layers/launch.toml" :=
         File (Document
                 [("processes",
                   VArray [VTable [("type", VString "web");
                                   ("command", VArray [VString "npm"; VString "start"])]])]
                 (fun _ => (1, 1)))]> ∅)
    "/layers/launch.toml" "0.9" (mkLaunchTOML [] [] [] [])
  = Return (mkLaunchTOML [] []
              [mkProcessEntry "web" ["npm"; "start"] ["npm"; "start"] [] None false ""]
              [], None).
Proof. vm_compute. reflexivity. Qed.




Example legacy_command_string :
  DecodeLaunchTOML
    (<["/layers/launch.toml" :=
         File (Document
                 [("processes",
                   VArray [VTable [("type", VString "web");
                                   ("command", VString "npm start")];
                           VTable [("type", VString "worker");
                                   ("command", VString "");
                                   ("direct", VBool true)]])]
                 (fun _ => (1, 1)))]> ∅)
    "/layers/launch.toml" "0.8" (mkLaunchTOML [] [] [] [])
  = Return (mkLaunchTOML [] []
              [mkProcessEntry "web" ["npm start"] ["npm start"] [] (Some false) false "";
               mkProcessEntry "worker" [] [] [] (Some true) false ""]
              [], None).
Proof. vm_compute. reflexivity. Qed.

(** * Further properties *)

(** ** Maps *)

Lemma get_put_eq (m : table) (key : string) (v : value) :
  get (put m key v) key = Some v.
Proof.
  induction m as [|[k w] m IH]; simpl.
  - by rewrite String.eqb_refl.
  - destruct (String.eqb_spec k key) as [->|Hne]; simpl.
    + by rewrite String.eqb_refl.
    + by destruct (String.eqb_spec k key).
Qed.

Lemma get_put_ne (m : table) (key key' : string) (v : value) :
  key <> key' -> get (put m key v) key' = get m key'.
Proof.
  intros Hne. induction m as [|[k w] m IH]; simpl.
  - by destruct (String.eqb_spec key key').
  - destruct (String.eqb_spec k key) as [->|Hk]; simpl.
    + by destruct (String.eqb_spec key key').
    + by rewrite IH.
Qed.

Lemma put_get_same (m : table) (key : string) (v : value) :
  get m key = Some v -> put m key v = m.
Proof.
  induction m as [|[k w] m IH]; simpl; [done|].
  destruct (String.eqb_spec k key) as [->|Hk].
  - by intros [= ->].
  - intros Hg. by rewrite IH.
Qed.

Lemma get_Some_keys (m : table) (key : string) :
  is_Some (get m key) <-> key ∈ m.*1.
Proof.
  induction m as [|[k w] m IH]; simpl.
  - split; [by intros [? [=]]|by intros ?%elem_of_nil].
  - rewrite elem_of_cons. destruct (String.eqb_spec k key) as [->|Hk].
    + split; [by left|by eexists].
    + rewrite IH. split; [by right|]. by intros [?|?]; [congruence|].
Qed.

(** ** Version and metadata of a requirement *)

Lemma itoa_not_empty (z : Z) : itoa z <> "".
Proof.
  unfold itoa. destruct (Z.to_int z) as [d|d]; simpl; [|done].
  by destruct d.
Qed.

Lemma Sprintf_v_not_empty (v : value) :
  (forall s, v <> VString s) -> Sprintf_v v <> "".
Proof.
  destruct v as [s|z|b|l|kvs]; intros Hv; simpl; try done.
  - by destruct (Hv s).
  - apply itoa_not_empty.
  - by destruct b.
Qed.

(** X1: once [ConvertVersionToMetadata] has run, the requirement has no top
    level version, so none of the three version predicates holds of it. *)
Theorem ConvertVersionToMetadata_clears (r : Require) :
  hasTopLevelVersions (Require_ConvertVersionToMetadata r) = false
  /\ hasDoublySpecifiedVersions (Require_ConvertVersionToMetadata r) = false
  /\ hasInconsistentVersions (Require_ConvertVersionToMetadata r) = false.
Proof.
  assert (Version (Require_ConvertVersionToMetadata r) = "") as Hv.
  { unfold Require_ConvertVersionToMetadata.
    destruct (String.eqb_spec (Version r) ""); simpl; done. }
  unfold hasTopLevelVersions, hasDoublySpecifiedVersions, hasInconsistentVersions.
  rewrite Hv. simpl.
  by destruct (index (Metadata (Require_ConvertVersionToMetadata r)) "version").
Qed.

(** X2: [ConvertVersionToMetadata] on a requirement with a version stores
    that version, as a string, under the metadata key [version], makes the
    map if it was nil, and leaves the name and every other key as it was. *)
Theorem ConvertVersionToMetadata_moves (r : Require) :
  Version r <> "" ->
  Name (Require_ConvertVersionToMetadata r) = Name r
  /\ Version (Require_ConvertVersionToMetadata r) = ""
  /\ index (Metadata (Require_ConvertVersionToMetadata r)) "version"
     = Some (VString (Version r))
  /\ forall key, key <> "version" ->
       index (Metadata (Require_ConvertVersionToMetadata r)) key
       = index (Metadata r) key.
Proof.
  intros Hne. unfold Require_ConvertVersionToMetadata.
  destruct (String.eqb_spec (Version r) ""); [done|]. simpl.
  repeat split.
  - apply get_put_eq.
  - intros key Hkey. rewrite get_put_ne by done. by destruct (Metadata r).
Qed.

Lemma ConvertVersionToMetadata_moves_witness :
  index (Metadata (Require_ConvertVersionToMetadata
                     (mkRequire "jdk" "11" (Some [("launch", VBool true)]))))
        "version"
  = Some (VString "11").
Proof.
  apply (ConvertVersionToMetadata_moves
           (mkRequire "jdk" "11" (Some [("launch", VBool true)]))).
  simpl. discriminate.
Defined.

(** X3: a version that went to the metadata comes back: converting the
    version to metadata and the metadata to a version gives the version the
    requirement had. *)
Theorem version_metadata_version (r : Require) :
  Version r <> "" ->
  Version (Require_convertMetadataToVersion (Require_ConvertVersionToMetadata r))
  = Version r.
Proof.
  intros Hne.
  destruct (ConvertVersionToMetadata_moves r Hne) as (_ & _ & Hm & _).
  unfold Require_convertMetadataToVersion. by rewrite Hm.
Qed.

Lemma version_metadata_version_witness :
  Version (Require_convertMetadataToVersion
             (Require_ConvertVersionToMetadata (mkRequire "jdk" "11" None)))
  = "11".
Proof.
  apply (version_metadata_version (mkRequire "jdk" "11" None)).
  simpl. discriminate.
Defined.

(** X4: a metadata version that is a non-empty string goes to the version
    and back: the metadata is what it was and the version is cleared. *)
Theorem metadata_version_metadata (r : Require) (m : table) (s : string) :
  Metadata r = Some m ->
  get m "version" = Some (VString s) ->
  s <> "" ->
  Require_ConvertVersionToMetadata (Require_convertMetadataToVersion r)
  = mkRequire (Name r) "" (Metadata r).
Proof.
  intros Hm Hg Hs.
  unfold Require_convertMetadataToVersion. rewrite Hm. simpl. rewrite Hg.
  unfold Require_ConvertVersionToMetadata. simpl.
  destruct (String.eqb_spec s ""); [done|]. simpl.
  by rewrite (put_get_same _ _ _ Hg).
Qed.

Lemma metadata_version_metadata_witness :
  Require_ConvertVersionToMetadata
    (Require_convertMetadataToVersion
       (mkRequire "jdk" "8" (Some [("version", VString "11")])))
  = mkRequire "jdk" "" (Some [("version", VString "11")]).
Proof.
  apply (metadata_version_metadata
           (mkRequire "jdk" "8" (Some [("version", VString "11")]))
           [("version", VString "11")] "11").
  - reflexivity.
  - reflexivity.
  - discriminate.
Defined.

(** X5: both conversions are idempotent. *)
Theorem conversions_idempotent (r : Require) :
  Require_ConvertVersionToMetadata (Require_ConvertVersionToMetadata r)
  = Require_ConvertVersionToMetadata r
  /\ Require_convertMetadataToVersion (Require_convertMetadataToVersion r)
     = Require_convertMetadataToVersion r.
Proof.
  split.
  - unfold Require_ConvertVersionToMetadata.
    destruct (String.eqb (Version r) "") eqn:He; simpl; [|reflexivity].
    by rewrite He.
  - unfold Require_convertMetadataToVersion.
    destruct (index (Metadata r) "version") as [v|] eqn:Hv; simpl.
    + by rewrite Hv.
    + by rewrite Hv.
Qed.

(** X6: after [convertMetadataToVersion] the requirement has inconsistent
    versions exactly when its metadata version is set and is not a string:
    the version is then the string form of a value that no string is equal
    to. A string in the metadata gives a consistent requirement. *)
Theorem convertMetadataToVersion_inconsistent (r : Require) :
  hasInconsistentVersions (Require_convertMetadataToVersion r) = true
  <-> exists version, index (Metadata r) "version" = Some version
                      /\ forall s, version <> VString s.
Proof.
  unfold Require_convertMetadataToVersion.
  destruct (index (Metadata r) "version") as [v|] eqn:Hv.
  - unfold hasInconsistentVersions. simpl. rewrite Hv.
    rewrite andb_true_iff, nonempty_string, negb_true_iff.
    rewrite <- not_true_iff_false, string_eq_iface_true.
    split.
    + intros [Hne Hdiff]. exists v. split; [done|].
      intros s ->. by apply Hdiff.
    + intros (v' & [= <-] & Hns). split; [by apply Sprintf_v_not_empty|].
      apply Hns.
  - unfold hasInconsistentVersions. rewrite Hv.
    split; [discriminate|]. by intros (v' & [=] & _).
Qed.

(** ** The version predicates over sections *)

Lemma any_Require_true (has : Require -> bool) (reqs : list Require) :
  any_Require has reqs = true <-> exists req, req ∈ reqs /\ has req = true.
Proof.
  induction reqs as [|req rest IH]; simpl.
  - split; [discriminate|]. by intros (? & ?%elem_of_nil & _).
  - destruct (has req) eqn:Hreq.
    + split; [|done]. intros _. exists req. split; [by left|done].
    + rewrite IH. split.
      * intros (x & Hin & Hx). exists x. split; [by right|done].
      * intros (x & [->|Hin]%elem_of_cons & Hx); [congruence|by exists x].
Qed.

Lemma any_PlanSections_true (has : PlanSections -> bool) (p : planSectionsList) :
  any_PlanSections has p = true
  <-> exists planSection, planSection ∈ p /\ has planSection = true.
Proof.
  induction p as [|planSection rest IH]; simpl.
  - split; [discriminate|]. by intros (? & ?%elem_of_nil & _).
  - destruct (has planSection) eqn:Hs.
    + split; [|done]. intros _. exists planSection. split; [by left|done].
    + rewrite IH. split.
      * intros (x & Hin & Hx). exists x. split; [by right|done].
      * intros (x & [->|Hin]%elem_of_cons & Hx); [congruence|by exists x].
Qed.

(** X7: over a list of alternative sections each version predicate holds
    exactly when some requirement of some section has it. *)
Theorem planSectionsList_predicates (p : planSectionsList) :
  (planSectionsList_hasInconsistentVersions p = true
   <-> exists planSection req, planSection ∈ p /\ req ∈ Requires planSection
                               /\ hasInconsistentVersions req = true)
  /\ (planSectionsList_hasDoublySpecifiedVersions p = true
      <-> exists planSection req, planSection ∈ p /\ req ∈ Requires planSection
                                  /\ hasDoublySpecifiedVersions req = true)
  /\ (planSectionsList_hasTopLevelVersions p = true
      <-> exists planSection req, planSection ∈ p /\ req ∈ Requires planSection
                                  /\ hasTopLevelVersions req = true).
Proof.
  unfold planSectionsList_hasInconsistentVersions,
    planSectionsList_hasDoublySpecifiedVersions,
    planSectionsList_hasTopLevelVersions.
  rewrite !any_PlanSections_true.
  unfold PlanSections_hasInconsistentVersions,
    PlanSections_hasDoublySpecifiedVersions, PlanSections_hasTopLevelVersions.
  repeat split.
  all: try (intros (s & Hs & (req & Hreq & Hhas)%any_Require_true);
            by exists s, req).
  all: intros (s & req & Hs & Hreq & Hhas); exists s; split; [done|];
    apply any_Require_true; by exists req.
Qed.

Lemma doubly_specified_is_top_level (r : Require) :
  hasDoublySpecifiedVersions r = true -> hasTopLevelVersions r = true.
Proof.
  unfold hasDoublySpecifiedVersions, hasTopLevelVersions.
  by destruct (index (Metadata r) "version").
Qed.

Lemma inconsistent_doubly (r : Require) :
  hasInconsistentVersions r = true -> hasDoublySpecifiedVersions r = true.
Proof.
  unfold hasInconsistentVersions, hasDoublySpecifiedVersions.
  destruct (index (Metadata r) "version"); [|done].
  by intros [H _]%andb_true_iff.
Qed.

Lemma any_Require_mono (has has' : Require -> bool) (reqs : list Require) :
  (forall req, has req = true -> has' req = true) ->
  any_Require has reqs = true -> any_Require has' reqs = true.
Proof.
  intros Himp. rewrite !any_Require_true.
  intros (req & Hin & Hreq). exists req. split; [done|by apply Himp].
Qed.

Lemma any_PlanSections_mono (has has' : PlanSections -> bool) (p : planSectionsList) :
  (forall s, has s = true -> has' s = true) ->
  any_PlanSections has p = true -> any_PlanSections has' p = true.
Proof.
  intros Himp. rewrite !any_PlanSections_true.
  intros (s & Hin & Hs). exists s. split; [done|by apply Himp].
Qed.

(** X8: over a build plan's alternatives the predicates are ordered:
    inconsistent versions somewhere are doubly specified versions somewhere,
    these are top level versions somewhere, and a list with a top level
    version has requirements. *)
Theorem planSectionsList_inconsistent_chain (p : planSectionsList) :
  planSectionsList_hasInconsistentVersions p = true ->
  planSectionsList_hasDoublySpecifiedVersions p = true
  /\ planSectionsList_hasTopLevelVersions p = true
  /\ planSectionsList_hasRequires p = true.
Proof.
  intros Hinc.
  assert (planSectionsList_hasDoublySpecifiedVersions p = true) as Hd.
  { revert Hinc. apply any_PlanSections_mono. intros s.
    apply any_Require_mono, inconsistent_doubly. }
  assert (planSectionsList_hasTopLevelVersions p = true) as Ht.
  { revert Hd. apply any_PlanSections_mono. intros s.
    apply any_Require_mono, doubly_specified_is_top_level. }
  repeat split; [done..|].
  revert Ht. apply any_PlanSections_mono. intros s.
  unfold PlanSections_hasTopLevelVersions, PlanSections_hasRequires.
  by destruct (Requires s).
Qed.

Lemma planSectionsList_inconsistent_chain_witness :
  planSectionsList_hasDoublySpecifiedVersions
    [mkPlanSections [] [mkProvide "jdk"];
     mkPlanSections [mkRequire "jdk" "8" (Some [("version", VString "11")])] []]
  = true.
Proof.
  apply (planSectionsList_inconsistent_chain
           [mkPlanSections [] [mkProvide "jdk"];
            mkPlanSections
              [mkRequire "jdk" "8" (Some [("version", VString "11")])] []]).
  reflexivity.
Defined.

(** X9: the conversions of a [BOMEntry] do to its embedded requirement
    what the conversions of a [Require] do, and leave its buildpack as it
    is. *)
Theorem BOMEntry_conversions (bom : BOMEntry) :
  BOMEntry_ConvertMetadataToVersion bom
  = mkBOMEntry (Require_convertMetadataToVersion (BOMEntry_Require bom))
               (Buildpack bom)
  /\ BOMEntry_convertVersionToMetadata bom
     = mkBOMEntry (Require_ConvertVersionToMetadata (BOMEntry_Require bom))
                  (Buildpack bom).
Proof.
  destruct bom as [r g]. split.
  - unfold BOMEntry_ConvertMetadataToVersion, Require_convertMetadataToVersion.
    simpl. by destruct (index (Metadata r) "version").
  - unfold BOMEntry_convertVersionToMetadata, Require_ConvertVersionToMetadata.
    simpl. by destruct (String.eqb (Version r) "").
Qed.

(** ** Filtering a buildpack plan *)

Lemma filter_loop_bool (unmet : list Unmet) (entries out : list Require) :
  fold_left (fun out entry =>
               if negb (containsName unmet (Name entry)) then out ++ [entry]
               else out) entries out
  = out ++ List.filter (fun entry => negb (containsName unmet (Name entry))) entries.
Proof.
  revert out. induction entries as [|entry rest IH]; intros out; simpl.
  - by rewrite app_nil_r.
  - rewrite IH. destruct (containsName unmet (Name entry)); simpl; [done|].
    by rewrite <- app_assoc.
Qed.

Lemma Plan_filter_entries (p : Plan) (unmet : list Unmet) :
  Plan_filter p unmet
  = mkPlan (List.filter (fun entry => negb (containsName unmet (Name entry)))
              (Entries p)).
Proof. unfold Plan_filter. by rewrite filter_loop_bool. Qed.

Lemma containsName_app (u u' : list Unmet) (name : string) :
  containsName (u ++ u') name = containsName u name || containsName u' name.
Proof.
  induction u as [|x u IH]; simpl; [done|].
  by destruct (String.eqb (Unmet_Name x) name).
Qed.

(** X10: filtering by two lists of unmet names, one after the other, is
    filtering by the two lists together, in either order; filtering by no
    name keeps every entry. *)
Theorem Plan_filter_compose (p : Plan) (u u' : list Unmet) :
  Plan_filter (Plan_filter p u) u' = Plan_filter p (u ++ u')
  /\ Plan_filter (Plan_filter p u) u' = Plan_filter (Plan_filter p u') u
  /\ Plan_filter p [] = p.
Proof.
  assert (forall a b, Plan_filter (Plan_filter p a) b = Plan_filter p (a ++ b)) as Hc.
  { intros a b. rewrite !Plan_filter_entries. simpl. f_equal.
    induction (Entries p) as [|entry rest IH]; simpl; [done|].
    rewrite containsName_app.
    destruct (containsName a (Name entry)); simpl; [done|].
    destruct (containsName b (Name entry)); simpl; [done|]. by rewrite IH. }
  split; [apply Hc|]. split.
  - rewrite !Hc, !Plan_filter_entries. f_equal.
    apply List.filter_ext. intros entry. rewrite !containsName_app.
    by rewrite orb_comm.
  - rewrite Plan_filter_entries. clear Hc. destruct p as [entries]. simpl. f_equal.
    induction entries as [|entry rest IH]; simpl; [done|]. f_equal. exact IH.
Qed.

(** X11: no entry of a filtered plan has an unmet name, so filtering again
    by the same names changes nothing, and the bill of materials of the
    filtered plan names no unmet requirement. *)
Theorem Plan_filter_no_unmet (p : Plan) (u : list Unmet) :
  (forall entry, entry ∈ Entries (Plan_filter p u) ->
     containsName u (Name entry) = false /\ entry ∈ Entries p)
  /\ Plan_filter (Plan_filter p u) u = Plan_filter p u
  /\ (forall bom, bom ∈ Plan_toBOM (Plan_filter p u) ->
        containsName u (Name (BOMEntry_Require bom)) = false
        /\ Buildpack bom = GroupElement_zero).
Proof.
  assert (forall entry, entry ∈ Entries (Plan_filter p u) ->
            containsName u (Name entry) = false /\ entry ∈ Entries p) as Hno.
  { intros entry. rewrite Plan_filter_entries. simpl.
    rewrite list_elem_of_In, List.filter_In, negb_true_iff, <- list_elem_of_In.
    tauto. }
  split; [done|]. split.
  - clear Hno. rewrite !Plan_filter_entries. f_equal. simpl.
    induction (Entries p) as [|entry rest IH]; simpl; [done|].
    destruct (containsName u (Name entry)) eqn:Hc; simpl; [exact IH|].
    rewrite Hc. simpl. f_equal. exact IH.
  - intros bom. unfold Plan_toBOM. rewrite toBOM_loop. simpl.
    intros (entry & -> & Hin)%list_elem_of_fmap. simpl.
    split; [by apply Hno|done].
Qed.

(** X12: the requirements of the bill of materials of a plan are the
    entries of the plan, in order. *)
Theorem Plan_toBOM_requires (p : Plan) :
  BOMEntry_Require <$> Plan_toBOM p = Entries p.
Proof.
  unfold Plan_toBOM. rewrite toBOM_loop. simpl.
  rewrite <- list_fmap_compose. apply list_fmap_id.
Qed.

(** ** Processes of a launch descriptor *)

Lemma ToLaunchProcesses_loop (bpID : string) (entries : list ProcessEntry)
    (processes : list launch.Process) :
  fold_left (fun processes process => processes ++ [ToLaunchProcess process bpID])
            entries processes
  = processes ++ ((fun process => ToLaunchProcess process bpID) <$> entries).
Proof.
  revert processes. induction entries as [|process rest IH]; intros processes; simpl.
  - by rewrite app_nil_r.
  - by rewrite IH, <- app_assoc.
Qed.

(** X13: [ToLaunchProcessesForBuildpack] converts the entries one by one,
    in order, and every process it returns belongs to the buildpack it was
    given. *)
Theorem ToLaunchProcessesForBuildpack_each (lt : LaunchTOML) (bpID : string) :
  ToLaunchProcessesForBuildpack lt bpID
  = (fun process => ToLaunchProcess process bpID) <$> Processes lt
  /\ forall process, process ∈ ToLaunchProcessesForBuildpack lt bpID ->
       launch.BuildpackID process = bpID.
Proof.
  assert (ToLaunchProcessesForBuildpack lt bpID
          = (fun process => ToLaunchProcess process bpID) <$> Processes lt) as Heq.
  { unfold ToLaunchProcessesForBuildpack. by rewrite ToLaunchProcesses_loop. }
  split; [done|]. rewrite Heq.
  by intros process (entry & -> & _)%list_elem_of_fmap.
Qed.

Lemma normalize_current_ok (processes processes' : list ProcessEntry) :
  normalize false processes = (processes', None) ->
  processes' = resolve None <$> processes
  /\ Forall (fun process => Direct process = None) processes.
Proof.
  revert processes'. induction processes as [|process rest IH];
    intros processes'; simpl.
  - by intros [= <-].
  - destruct (Direct process) eqn:Hd; [discriminate|].
    destruct (normalize false rest) as [rest' err]. intros [= <- ->].
    destruct (IH rest' eq_refl) as [-> Hall]. split; [done|].
    by constructor.
Qed.

(** X14: in what a successful [DecodeLaunchTOML] leaves in the target,
    every process has its [Command] set from [RawCommandValue]; below 0.9
    every [Direct] is set, and from 0.9 on every [Direct] is nil, so that
    [ToLaunchProcess] makes every process a direct one. *)
Theorem DecodeLaunchTOML_processes
    (fs : filesystem) (launchPath bpAPI : string) (ver : api.Version)
    (commandsAreStrings : bool) (launchTOML lt : LaunchTOML) :
  api.MustParse bpAPI = Some ver ->
  api.LessThan ver "0.9" = Some commandsAreStrings ->
  DecodeLaunchTOML fs launchPath bpAPI launchTOML = Return (lt, None) ->
  forall process, process ∈ Processes lt ->
    Command process = RawCommandValue process
    /\ if commandsAreStrings then is_Some (Direct process)
       else Direct process = None
            /\ forall bpID, launch.Direct (ToLaunchProcess process bpID) = true.
Proof.
  intros Hp Hv. unfold DecodeLaunchTOML.
  destruct (os_Open fs launchPath) as [err|c]; [discriminate|].
  rewrite Hp, Hv. simpl.
  destruct commandsAreStrings.
  - destruct (toml.Decode c unmarshal_LaunchTOMLBeforeV9) as [err|ltb];
      [discriminate|].
    simpl. rewrite normalize_legacy. intros [= <-]. simpl.
    intros process (entry & -> & _)%list_elem_of_fmap. split; [done|].
    simpl. by destruct (Direct entry).
  - destruct (toml.Decode c (unmarshal_LaunchTOML launchTOML)) as [err|decoded];
      [discriminate|].
    destruct (normalize false (Processes decoded)) as [processes err] eqn:Hn.
    intros [= <- ->]. simpl.
    destruct (normalize_current_ok _ _ Hn) as [-> Hall].
    intros process (entry & -> & Hin)%list_elem_of_fmap. split; [done|].
    rewrite Forall_forall in Hall. simpl.
    split; [by apply Hall|]. intros bpID. unfold ToLaunchProcess. simpl.
    by rewrite (Hall _ Hin).
Qed.

Lemma DecodeLaunchTOML_processes_witness :
  let process :=
    mkProcessEntry "web" ["npm"; "start"] ["npm"; "start"] [] None false "" in
  Command process = RawCommandValue process
  /\ (Direct process = None
      /\ forall bpID, launch.Direct (ToLaunchProcess process bpID) = true).
Proof.
  intros process.
  apply (DecodeLaunchTOML_processes
           (<["/layers/launch.toml" :=
                File (Document
                        [("processes",
                          VArray [VTable [("type", VString "web");
                                          ("command", VArray [VString "npm"; VString "start"])]])]
                        (fun _ => (1, 1)))]> ∅)
           "/layers/launch.toml" "0.9" (api.mkVersion 0 9) false
           (mkLaunchTOML [] [] [] [])
           (mkLaunchTOML [] [] [process] [])).
  - vm_compute. reflexivity.
  - vm_compute. reflexivity.
  - vm_compute. reflexivity.
  - apply list_elem_of_here.
Defined.

Lemma has_newline_app (a b : string) :
  has_newline (a +:+ String "010" b) = true.
Proof.
  induction a as [|c a IH]; simpl; [done|]. by destruct (Ascii.eqb c "010").
Qed.

Lemma position_error_not_direct (derr : DecodeError) :
  position_error derr <> direct_error.
Proof.
  unfold position_error, direct_error. intros [= Heq].
  assert (has_newline "process.direct is not supported on this buildpack version"
          = true) as Hnl.
  { rewrite <- Heq. exact (has_newline_app (derr_String derr) _). }
  vm_compute in Hnl. discriminate.
Qed.

(** X15: below 0.9 the file is decoded into a struct of its own, so a
    [DecodeLaunchTOML] that returns an error leaves the target as it was. *)
Theorem DecodeLaunchTOML_legacy_error
    (fs : filesystem) (launchPath bpAPI : string) (ver : api.Version)
    (launchTOML lt : LaunchTOML) (err : error) :
  api.MustParse bpAPI = Some ver ->
  api.LessThan ver "0.9" = Some true ->
  DecodeLaunchTOML fs launchPath bpAPI launchTOML = Return (lt, Some err) ->
  lt = launchTOML /\ err <> direct_error.
Proof.
  intros Hp Hv. unfold DecodeLaunchTOML.
  destruct (os_Open fs launchPath) as [e|c] eqn:Ho.
  { intros [= <- <-]. split; [done|]. unfold os_Open in Ho.
    by destruct (fs !! launchPath) as [[c|]|]; simplify_eq. }
  rewrite Hp, Hv. simpl.
  destruct (toml.Decode c unmarshal_LaunchTOMLBeforeV9) as [e|ltb] eqn:Hd.
  - simpl. intros [= <- <-]. split; [done|].
    destruct c as [doc locate|derr]; simpl in Hd.
    + destruct (unmarshal_LaunchTOMLBeforeV9 doc); [|discriminate].
      injection Hd as <-. apply position_error_not_direct.
    + injection Hd as <-. apply position_error_not_direct.
  - simpl. by rewrite normalize_legacy.
Qed.

Lemma DecodeLaunchTOML_legacy_error_witness :
  mkLaunchTOML [] [mkLabel "k" "v"] [] [] = mkLaunchTOML [] [mkLabel "k" "v"] [] []
  /\ position_error (mkDecodeError "toml: cannot decode processes.command" 3 11)
     <> direct_error.
Proof.
  apply (DecodeLaunchTOML_legacy_error
           (<["/layers/launch.toml" :=
                File (Document
                        [("processes",
                          VArray [VTable [("command", VArray [VString "npm"])]])]
                        (fun _ => (3, 11)))]> ∅)
           "/layers/launch.toml" "0.8" (api.mkVersion 0 8)
           (mkLaunchTOML [] [mkLabel "k" "v"] [] [])
           (mkLaunchTOML [] [mkLabel "k" "v"] [] [])
           (position_error (mkDecodeError "toml: cannot decode processes.command" 3 11)));
    vm_compute; reflexivity.
Defined.

(** X16: a launch descriptor that does not exist is an error, whatever the
    API version string is: the error of [os.Open] is returned, it satisfies
    [os.IsNotExist], and the target is as it was. *)
Theorem DecodeLaunchTOML_not_exist
    (fs : filesystem) (launchPath bpAPI : string) (launchTOML : LaunchTOML) :
  fs !! launchPath = None ->
  exists err,
    DecodeLaunchTOML fs launchPath bpAPI launchTOML = Return (launchTOML, Some err)
    /\ os_IsNotExist (Some err) = true.
Proof.
  intros Hnone. unfold DecodeLaunchTOML, os_Open. rewrite Hnone. by eexists.
Qed.

Lemma DecodeLaunchTOML_not_exist_witness :
  exists err,
    DecodeLaunchTOML ∅ "/layers/launch.toml" "no version" (mkLaunchTOML [] [] [] [])
    = Return (mkLaunchTOML [] [] [] [], Some err)
    /\ os_IsNotExist (Some err) = true.
Proof.
  apply (DecodeLaunchTOML_not_exist ∅ "/layers/launch.toml" "no version"
           (mkLaunchTOML [] [] [] [])).
  reflexivity.
Defined.

(** X17: from 0.9 on, the loop over the processes stops at the first entry
    with [Direct] set: the entries before it have their [Command] set, that
    entry and the ones after it are as they were decoded, and the error
    is the one about [process.direct]. *)
Theorem normalize_stops_at_direct
    (before after : list ProcessEntry) (process : ProcessEntry) :
  Forall (fun entry => Direct entry = None) before ->
  Direct process <> None ->
  normalize false (before ++ process :: after)
  = ((resolve None <$> before) ++ process :: after, Some direct_error).
Proof.
  intros Hbefore Hset. induction Hbefore as [|entry before Hentry _ IH]; simpl.
  - by destruct (Direct process).
  - by rewrite Hentry, IH.
Qed.

Lemma normalize_stops_at_direct_witness :
  normalize false
    ([mkProcessEntry "web" [] ["a"] [] None false ""]
     ++ mkProcessEntry "worker" [] ["b"] [] (Some true) false ""
     :: [mkProcessEntry "task" [] ["c"] [] None false ""])
  = ((resolve None <$> [mkProcessEntry "web" [] ["a"] [] None false ""])
     ++ mkProcessEntry "worker" [] ["b"] [] (Some true) false ""
     :: [mkProcessEntry "task" [] ["c"] [] None false ""],
     Some direct_error).
Proof.
  apply (normalize_stops_at_direct
           [mkProcessEntry "web" [] ["a"] [] None false ""]
           [mkProcessEntry "task" [] ["c"] [] None false ""]
           (mkProcessEntry "worker" [] ["b"] [] (Some true) false "")).
  - repeat constructor.
  - discriminate.
Defined.

(** ** Layer metadata files across versions *)







Lemma has_any_true (python : table) (keys : list string) :
  has_any python keys = true <-> exists key, key ∈ keys /\ key ∈ python.*1.
Proof.
  induction keys as [|key rest IH]; simpl.
  - split; [discriminate|]. by intros (? & ?%elem_of_nil & _).
  - destruct (get python key) as [v|] eqn:Hg.
    + split; [|done]. intros _. exists key. split; [by left|].
      apply get_Some_keys. by eexists.
    + rewrite IH. split.
      * intros (k & Hin & Hk). exists k. split; [by right|done].
      * intros (k & [->|Hin]%elem_of_cons & Hk); [|by exists k].
        apply get_Some_keys in Hk as [v Hv]. congruence.
Qed.

(** X21: the scan of [typesInTopLevel] is shallow: on a file that parses
    it returns no error, and true exactly when one of the keys is a key of
    the top level table. *)
Theorem typesInTopLevel_shallow
    (fs : filesystem) (path : string) (keys : list string)
    (doc : table) (locate : list string -> Z * Z) :
  os_Open fs path = inr (Document doc locate) ->
  exists found,
    typesInTopLevel fs path keys = (found, None)
    /\ (found = true <-> exists key, key ∈ keys /\ key ∈ doc.*1).
Proof.
  intros Ho. unfold typesInTopLevel. rewrite Ho. simpl.
  eexists. split; [done|]. apply has_any_true.
Qed.

Lemma typesInTopLevel_shallow_witness :
  exists found,
    typesInTopLevel
      (<["/layers/a.toml" :=
           File (Document [("metadata", VTable [("build", VBool true)])]
                          (fun _ => (1, 1)))]> ∅)
      "/layers/a.toml" ["build"; "launch"; "cache"]
    = (found, None)
    /\ (found = true
        <-> exists key, key ∈ ["build"; "launch"; "cache"]
                        /\ key ∈ [("metadata", VTable [("build", VBool true)])].*1).
Proof.
  apply (typesInTopLevel_shallow _ "/layers/a.toml" ["build"; "launch"; "cache"]
           [("metadata", VTable [("build", VBool true)])] (fun _ => (1, 1))).
  vm_compute. reflexivity.
Defined.








(** ** [DecodeFile] *)


(** ** The types table *)




Section to_fields_from.
Context {T A : Type} (fs : toml.fields T) (proj : T -> A) (key : string).

Hypothesis others_keep : forall k g p v x x',
  k <> key -> fs k = Some g -> g p v x = inr x' -> proj x' = proj x.


End to_fields_from.


